(** * trends_dashboard_service.py : the dashboard launcher

    The script imports [sys] and [os] and, when it is the main module,
    prints a start-up banner and then runs
    [exec(open('complete_dashboard.py').read())].

    The module body is embedded in a small state-and-exception monad over
    the interpreter's world (the module's globals and the trace of what
    the process did).  The Python built-ins the script calls ([print],
    [open], [read], [exec], [import], a global name load, [==] and [*] on
    strings) are modelled once, below; the program that lives in
    [complete_dashboard.py] is not part of the repository and stays a
    parameter of the development ([exec_sem]).

    A run is described by what it did up to its end: the content of
    [complete_dashboard.py] either returns or raises, and a server stopped
    with CTRL+C is a content that raises [KeyboardInterrupt]. *)

From Stdlib Require Import String Ascii ZArith List.
From stdpp Require Import gmap strings list.

Local Open Scope string_scope.
Local Open Scope Z_scope.
Local Open Scope list_scope.

(** ** Python values, exceptions, files *)

(** The values the module's globals hold: strings and module objects. *)
Inductive value : Type :=
  | VStr (s : string)
  | VModule (name : string).

(** The exceptions that can reach the top level.  [SystemExit] carries the
    status the interpreter hands to the operating system; [Failure] stands
    for every other error the executed file may raise (SyntaxError,
    RuntimeError, ...), with its class name and message. *)
Inductive exn : Type :=
  | FileNotFoundError (path : string)
  | IsADirectoryError (path : string)
  | PermissionError (path : string)
  | NameError (name : string)
  | KeyboardInterrupt
  | SystemExit (status : Z)
  | Failure (class message : string).

(** What a path of the working directory denotes. *)
Inductive node : Type :=
  | Regular (content : string)
  | Directory
  | Unreadable.

Inductive result (A : Type) : Type :=
  | Ok (a : A)
  | Raise (e : exn).
Arguments Ok {A} a.
Arguments Raise {A} e.

(** How the process was started: the argument vector, the name the
    interpreter gives the module ([__main__] for [python
    trends_dashboard_service.py], the module's own name on [import]),
    the working directory, and the other globals the interpreter presets
    ([__file__], [__builtins__], ...). *)
Record invocation : Type := Invocation {
  argv : list string;
  modname : string;
  fs : gmap string node;
  preset : gmap string value
}.

Section Launcher.

(** The effects of the executed file (its output, its sockets, ...) are
    opaque to the launcher. *)
Variable Effect : Type.

(** What the process does, in order.  [Hosted] events come from the
    executed file, every other event from the launcher's own statements. *)
Inductive event : Type :=
  | Import (module : string)
  | Stdout (text : string)
  | Open (path : string)
  | ReadAll (path : string) (data : string)
  | Exec (src : string) (g : gmap string value)
  | Hosted (h : Effect).

Record world : Type := World {
  globals : gmap string value;
  trace : list event
}.

(** The outcome of running a source text with [exec]: its effects, the
    globals it leaves behind (it runs in the caller's dictionary) and how
    it ended. *)
Record hosted : Type := Hostedrun {
  h_events : list Effect;
  h_globals : gmap string value;
  h_outcome : result unit
}.

(** The meaning of the code handed to [exec].  It may depend on everything
    of the process (the argument vector through [sys.argv], the files)
    and on the globals it is run in. *)
Variable exec_sem : invocation -> string -> gmap string value -> hosted.

(** ** The monad of module-level statements *)

Definition M (A : Type) : Type := invocation -> world -> world * result A.

Definition ret {A} (a : A) : M A := fun _ w => (w, Ok a).

Definition bind {A B} (c : M A) (k : A -> M B) : M B :=
  fun env w =>
    match c env w with
    | (w', Ok a) => k a env w'
    | (w', Raise e) => (w', Raise e)
    end.

Declare Scope py_scope.
Delimit Scope py_scope with py.
Notation "x <- c ;; k" := (bind c (fun x => k))
  (at level 20, c at level 99, k at level 200, only parsing) : py_scope.
Notation "c ;; k" := (bind c (fun _ => k))
  (at level 100, k at level 200, only parsing, right associativity) : py_scope.
Local Open Scope py_scope.

Definition emit (ev : event) : M unit :=
  fun _ w => (World (globals w) (trace w ++ [ev]), Ok tt).

Definition store_name (x : string) (v : value) : M unit :=
  fun _ w => (World (<[x := v]> (globals w)) (trace w), Ok tt).

(** ** The built-ins the script uses *)

Definition nl : string := String (ascii_of_nat 10) EmptyString.

(** [s * n] on strings. *)
Fixpoint str_mul (s : string) (n : nat) : string :=
  match n with
  | O => EmptyString
  | S n' => s +:+ str_mul s n'
  end.

(** [a == b]: strings compare by content, a module object only equals
    itself, and a string never equals a module. *)
Definition py_eq (a b : value) : bool :=
  match a, b with
  | VStr s, VStr t => String.eqb s t
  | VModule m, VModule n => String.eqb m n
  | _, _ => false
  end.

(** [import m]: the module is loaded and bound to its name. *)
Definition import_ (m : string) : M unit :=
  emit (Import m) ;; store_name m (VModule m).

(** Loading a global name. *)
Definition load_name (x : string) : M value :=
  fun _ w =>
    match globals w !! x with
    | Some v => (w, Ok v)
    | None => (w, Raise (NameError x))
    end.

(** [print(s)] writes [s] and a newline to standard output; [print()]
    is [print_ ""]. *)
Definition print_ (s : string) : M unit := emit (Stdout (s +:+ nl)).

(** A file object opened for reading: its path and what is left to read. *)
Record handle : Type := Handle { h_path : string; h_rest : string }.

(** [open(path)], in the default read mode. *)
Definition open_ (path : string) : M handle :=
  emit (Open path) ;;
  fun env w =>
    match fs env !! path with
    | None => (w, Raise (FileNotFoundError path))
    | Some Directory => (w, Raise (IsADirectoryError path))
    | Some Unreadable => (w, Raise (PermissionError path))
    | Some (Regular content) => (w, Ok (Handle path content))
    end.

(** [f.read()]: everything from the current position to the end. *)
Definition read (f : handle) : M string :=
  emit (ReadAll (h_path f) (h_rest f)) ;; ret (h_rest f).

(** [exec(src)] with no explicit dictionaries: [src] runs in the caller's
    globals, and what it does to them stays. *)
Definition exec_ (src : string) : M unit :=
  fun env w =>
    let r := exec_sem env src (globals w) in
    (World (h_globals r)
           (trace w ++ Exec src (globals w) :: map Hosted (h_events r)),
     h_outcome r).

(** ** The script *)

Definition launcher : M unit :=
  import_ "sys" ;;
  import_ "os" ;;
  name <- load_name "__name__" ;;
  if py_eq name (VStr "__main__") then
    print_ (str_mul "=" 60) ;;
    print_ "FASHION TRENDS DASHBOARD SERVICE" ;;
    print_ (str_mul "=" 60) ;;
    print_ (nl +:+ "Starting Dash application...") ;;
    print_ "Dashboard will be available at: http://localhost:8051" ;;
    print_ (nl +:+ "Features:") ;;
    print_ "  • Overview: Fashion trend analysis with Google Trends" ;;
    print_ "  • Trends: State-wise analysis & fashion blog reports" ;;
    print_ "  • Reports: Multi-timeframe comprehensive analysis" ;;
    print_ (nl +:+ "Press CTRL+C to stop the server") ;;
    print_ (str_mul "=" 60) ;;
    print_ "" ;;
    f <- open_ "complete_dashboard.py" ;;
    src <- read f ;;
    exec_ src
  else
    ret tt.

(** ** Running the script as a process *)

(** The globals the interpreter hands to the module body. *)
Definition initial_globals (env : invocation) : gmap string value :=
  <["__name__" := VStr (modname env)]> (preset env).

Definition run (env : invocation) : world * result unit :=
  launcher env (World (initial_globals env) []).

(** The status the interpreter exits with: 0 when the module body
    returns, the requested status on [SystemExit], 130 after an
    interrupt, 1 after any other uncaught exception. *)
Definition exit_status (r : result unit) : Z :=
  match r with
  | Ok _ => 0
  | Raise (SystemExit s) => s
  | Raise KeyboardInterrupt => 130
  | Raise _ => 1
  end.

Definition uncaught (r : result unit) : option exn :=
  match r with
  | Ok _ => None
  | Raise e => Some e
  end.

End Launcher.

Arguments Import {Effect} module.
Arguments Stdout {Effect} text.
Arguments Open {Effect} path.
Arguments ReadAll {Effect} path data.
Arguments Exec {Effect} src g.
Arguments Hosted {Effect} h.
Arguments World {Effect} globals trace.
Arguments globals {Effect} w.
Arguments trace {Effect} w.
Arguments Hostedrun {Effect} h_events h_globals h_outcome.
Arguments h_events {Effect} h.
Arguments h_globals {Effect} h.
Arguments h_outcome {Effect} h.
Arguments run {Effect} exec_sem env.
Arguments launcher {Effect} exec_sem env w.

(** ** Reading a trace *)

(** The path the script opens (a literal in the source). *)
Definition target : string := "complete_dashboard.py".

(** The banner as a list: separator, title, separator, start-up message,
    URL line, the feature list (a heading and three items), the CTRL+C
    instruction, separator, empty line.  It is written out apart from
    [launcher], whose [print] calls are compared with it below. *)
Definition banner_lines : list string :=
  [ str_mul "=" 60;
    "FASHION TRENDS DASHBOARD SERVICE";
    str_mul "=" 60;
    nl +:+ "Starting Dash application...";
    "Dashboard will be available at: http://localhost:8051";
    nl +:+ "Features:";
    "  • Overview: Fashion trend analysis with Google Trends";
    "  • Trends: State-wise analysis & fashion blog reports";
    "  • Reports: Multi-timeframe comprehensive analysis";
    nl +:+ "Press CTRL+C to stop the server";
    str_mul "=" 60;
    "" ].

Definition banner_events {Effect} : list (event Effect) :=
  map (fun s => Stdout (s +:+ nl)) banner_lines.

Definition import_events {Effect} : list (event Effect) :=
  [Import "sys"; Import "os"].

(** The globals at the [if __name__ == "__main__"] test, and so at the
    [exec] call: the two imports are bound on top of what the interpreter
    preset. *)
Definition launcher_globals (env : invocation) : gmap string value :=
  <["os" := VModule "os"]> (<["sys" := VModule "sys"]> (initial_globals env)).

Definition is_hosted {Effect} (ev : event Effect) : bool :=
  match ev with Hosted _ => true | _ => false end.

Definition is_stdout {Effect} (ev : event Effect) : bool :=
  match ev with Stdout _ => true | _ => false end.

Definition is_open {Effect} (ev : event Effect) : bool :=
  match ev with Open _ => true | _ => false end.

Definition is_read {Effect} (ev : event Effect) : bool :=
  match ev with ReadAll _ _ => true | _ => false end.

Definition is_exec {Effect} (ev : event Effect) : bool :=
  match ev with Exec _ _ => true | _ => false end.

(** The launcher's own events: everything but what the executed file did. *)
Definition own_events {Effect} (tr : list (event Effect)) : list (event Effect) :=
  List.filter (fun ev => negb (is_hosted ev)) tr.

(** What the executed file did. *)
Fixpoint hosted_events {Effect} (tr : list (event Effect)) : list Effect :=
  match tr with
  | [] => []
  | Hosted h :: tr' => h :: hosted_events tr'
  | _ :: tr' => hosted_events tr'
  end.

(** The text the launcher itself wrote to standard output. *)
Fixpoint stdout_text {Effect} (tr : list (event Effect)) : string :=
  match tr with
  | [] => ""
  | Stdout s :: tr' => s +:+ stdout_text tr'
  | _ :: tr' => stdout_text tr'
  end.

Definition count_events {Effect} (p : event Effect -> bool)
    (tr : list (event Effect)) : nat :=
  length (List.filter p tr).

(** The path an event touches, for the events that touch one. *)
Definition event_path {Effect} (ev : event Effect) : option string :=
  match ev with
  | Open p => Some p
  | ReadAll p _ => Some p
  | _ => None
  end.

(** The status of the whole process. *)
Definition process_status {Effect}
    (exec_sem : invocation -> string -> gmap string value -> hosted Effect)
    (env : invocation) : Z :=
  exit_status (snd (run exec_sem env)).

(** An exception that is a failure: everything but a requested exit. *)
Definition is_failure (e : exn) : bool :=
  match e with
  | SystemExit _ => false
  | _ => true
  end.

(** The same process started with another argument vector. *)
Definition with_argv (args : list string) (env : invocation) : invocation :=
  Invocation args (modname env) (fs env) (preset env).

(** Whether [__name__] is the string [__main__] in a dictionary. *)
Definition name_is_main (g : gmap string value) : bool :=
  match g !! "__name__" with
  | Some v => py_eq v (VStr "__main__")
  | None => false
  end.

(** [c] is [b] under an [if __name__ == "__main__":] guard, for a given
    meaning of executed code: in a dictionary where the test holds [c]
    does what [b] does, elsewhere it does nothing. *)
Definition main_guarded {Effect}
    (exec_sem : invocation -> string -> gmap string value -> hosted Effect)
    (c b : string) : Prop :=
  forall env g,
    exec_sem env c g =
      if name_is_main g then exec_sem env b g else Hostedrun [] g (Ok tt).

(** ** A stand-in for the dashboard file

    A three-statement language, enough to run the launcher on concrete
    working directories: [raise RuntimeError('boom')], [print(sys.argv)],
    and any other text, which writes itself; each optionally under a
    one-line [__main__] guard. *)

Fixpoint strip_prefix (p s : string) : option string :=
  match p, s with
  | EmptyString, _ => Some s
  | String a p', String b s' =>
      if Ascii.eqb a b then strip_prefix p' s' else None
  | String _ _, EmptyString => None
  end.

Definition toy_guard : string := "if __name__ == '__main__': ".

Definition toy_stmt (env : invocation) (src : string)
    (g : gmap string value) : hosted string :=
  if String.eqb src "raise RuntimeError('boom')" then
    Hostedrun [] g (Raise (Failure "RuntimeError" "boom"))
  else if String.eqb src "print(sys.argv)" then
    Hostedrun (argv env) g (Ok tt)
  else
    Hostedrun [src] g (Ok tt).

Definition toy_exec (env : invocation) (src : string)
    (g : gmap string value) : hosted string :=
  match strip_prefix toy_guard src with
  | Some body =>
      if name_is_main g then toy_stmt env body g else Hostedrun [] g (Ok tt)
  | None => toy_stmt env src g
  end.

(** The launcher started as a script in a directory whose
    [complete_dashboard.py] holds [src]. *)
Definition script_with (src : string) : invocation :=
  Invocation ["trends_dashboard_service.py"] "__main__"
             {[ "complete_dashboard.py" := Regular src ]} ∅.

(** The launcher started as a script in an empty directory. *)
Definition script_alone : invocation :=
  Invocation ["trends_dashboard_service.py"] "__main__" ∅ ∅.

(** The launcher loaded by [import trends_dashboard_service]. *)
Definition imported_with (src : string) : invocation :=
  Invocation ["app.py"] "trends_dashboard_service"
             {[ "complete_dashboard.py" := Regular src ]} ∅.

(** The launcher started as a script beside a [complete_dashboard.py]
    that is whatever [n] says: a file, a directory, a file it may not
    read. *)
Definition script_beside (n : node) : invocation :=
  Invocation ["trends_dashboard_service.py"] "__main__"
             {[ "complete_dashboard.py" := n ]} ∅.

(** The launcher started with an extra argument in a directory that holds
    more than the dashboard. *)
Definition busy_directory (src : string) : invocation :=
  Invocation ["trends_dashboard_service.py"; "--debug"] "__main__"
             (<["notes.txt" := Regular "todo"]>
                (<["assets" := Directory]>
                   {[ "complete_dashboard.py" := Regular src ]}))
             ∅.

(** The launcher started by an interpreter that presets [__file__], an
    unrelated [sys] and a [__name__] of its own. *)
Definition preset_script (src : string) : invocation :=
  Invocation ["trends_dashboard_service.py"] "__main__"
             {[ "complete_dashboard.py" := Regular src ]}
             (<["__file__" := VStr "trends_dashboard_service.py"]>
                (<["sys" := VStr "preset"]>
                   {[ "__name__" := VStr "preset" ]})).

(** * Properties *)

Section LauncherFacts.

Context {Effect : Type}.
Variable exec_sem : invocation -> string -> gmap string value -> hosted Effect.

Lemma launcher_globals_name (env : invocation) :
  launcher_globals env !! "__name__" = Some (VStr (modname env)).
Proof.
  unfold launcher_globals, initial_globals.
  rewrite !lookup_insert_ne by discriminate.
  apply lookup_insert_eq.
Qed.

Lemma py_eq_main (s : string) :
  py_eq (VStr s) (VStr "__main__") = true <-> s = "__main__".
Proof. simpl. apply String.eqb_eq. Qed.

(** The module body up to the guard: two imports, then the test. *)
Lemma run_unfold (env : invocation) :
  run exec_sem env =
    if String.eqb (modname env) "__main__" then
      match fs env !! target with
      | Some (Regular src) =>
          let r := exec_sem env src (launcher_globals env) in
          (World (h_globals r)
             (import_events ++ banner_events
                ++ [Open target; ReadAll target src]
                ++ Exec src (launcher_globals env) :: map Hosted (h_events r)),
           h_outcome r)
      | Some Directory =>
          (World (launcher_globals env)
             (import_events ++ banner_events ++ [Open target]),
           Raise (IsADirectoryError target))
      | Some Unreadable =>
          (World (launcher_globals env)
             (import_events ++ banner_events ++ [Open target]),
           Raise (PermissionError target))
      | None =>
          (World (launcher_globals env)
             (import_events ++ banner_events ++ [Open target]),
           Raise (FileNotFoundError target))
      end
    else
      (World (launcher_globals env) import_events, Ok tt).
Proof.
  unfold run, launcher, bind, import_, load_name, emit, store_name, bind.
  cbn [globals trace app].
  fold (launcher_globals env).
  rewrite launcher_globals_name.
  cbn [py_eq].
  destruct (String.eqb (modname env) "__main__"); [|reflexivity].
  unfold print_, open_, read, exec_, bind, emit, ret, target.
  cbn [globals trace].
  destruct (fs env !! "complete_dashboard.py") as [[src| |]|]; reflexivity.
Qed.

Lemma run_main_regular (env : invocation) (src : string) :
  modname env = "__main__" ->
  fs env !! target = Some (Regular src) ->
  run exec_sem env =
    (World (h_globals (exec_sem env src (launcher_globals env)))
       (import_events ++ banner_events
          ++ [Open target; ReadAll target src]
          ++ Exec src (launcher_globals env)
               :: map Hosted (h_events (exec_sem env src (launcher_globals env)))),
     h_outcome (exec_sem env src (launcher_globals env))).
Proof.
  intros Hmain Hfile. rewrite run_unfold, Hmain, Hfile. reflexivity.
Qed.

Lemma run_main_missing (env : invocation) :
  modname env = "__main__" ->
  fs env !! target = None ->
  run exec_sem env =
    (World (launcher_globals env)
       (import_events ++ banner_events ++ [Open target]),
     Raise (FileNotFoundError target)).
Proof.
  intros Hmain Hfile. rewrite run_unfold, Hmain, Hfile. reflexivity.
Qed.

Lemma run_imported (env : invocation) :
  modname env <> "__main__" ->
  run exec_sem env = (World (launcher_globals env) import_events, Ok tt).
Proof.
  intros Hname. rewrite run_unfold.
  apply String.eqb_neq in Hname. rewrite Hname. reflexivity.
Qed.

(** Filters and folds over a trace. *)

Lemma filter_hosted (p : event Effect -> bool) (hs : list Effect) :
  (forall h, p (Hosted h) = false) ->
  List.filter p (map Hosted hs) = [].
Proof.
  intros Hp. induction hs as [|h hs IH]; simpl; [reflexivity|].
  rewrite Hp. exact IH.
Qed.

Lemma hosted_events_app (a b : list (event Effect)) :
  hosted_events (a ++ b) = hosted_events a ++ hosted_events b.
Proof.
  induction a as [|ev a IH]; simpl; [reflexivity|].
  destruct ev; simpl; rewrite IH; reflexivity.
Qed.

Lemma hosted_events_map (hs : list Effect) :
  hosted_events (map Hosted hs) = hs.
Proof.
  induction hs as [|h hs IH]; simpl; [reflexivity|]. rewrite IH. reflexivity.
Qed.

Lemma stdout_text_hosted (hs : list Effect) :
  stdout_text (map Hosted hs) = "".
Proof.
  induction hs as [|h hs IH]; simpl; [reflexivity|]. exact IH.
Qed.

Lemma stdout_text_app_silent (a b : list (event Effect)) :
  stdout_text b = "" ->
  stdout_text (a ++ b) = stdout_text a.
Proof.
  intros Hb. induction a as [|ev a IH]; simpl; [exact Hb|].
  destruct ev; simpl; rewrite ?IH; reflexivity.
Qed.

Lemma own_events_app (a b : list (event Effect)) :
  own_events (a ++ b) = own_events a ++ own_events b.
Proof. unfold own_events. apply List.filter_app. Qed.

Lemma own_events_hosted (hs : list Effect) :
  own_events (map Hosted hs) = [].
Proof. unfold own_events. apply filter_hosted. reflexivity. Qed.

(** None of the events up to the end of the banner touches a file or
    runs code. *)
Lemma prelude_quiet (ev : event Effect) :
  In ev (import_events ++ banner_events) ->
  is_open ev = false /\ is_read ev = false /\ is_exec ev = false.
Proof.
  unfold import_events, banner_events, banner_lines. simpl.
  intros H. repeat (destruct H as [<-|H]; [repeat split|]). destruct H.
Qed.

(** Whatever the working directory holds, a run as the main module puts
    the banner, and nothing else of the launcher's, on standard output. *)
Lemma stdout_text_run_main (env : invocation) :
  modname env = "__main__" ->
  stdout_text (trace (fst (run exec_sem env))) = stdout_text (@banner_events Effect).
Proof.
  intros Hmain. rewrite run_unfold, Hmain.
  cbn [String.eqb Ascii.eqb Bool.eqb].
  destruct (fs env !! target) as [[src| |]|]; cbn [fst trace];
    rewrite (app_assoc import_events), stdout_text_app_silent;
    try reflexivity.
  cbn [app stdout_text]. apply stdout_text_hosted.
Qed.

(** ** The banner comes first *)

(** C1. Run as the main module with [complete_dashboard.py] present and
    its content finishing without error, the process first writes the
    twelve banner lines, in program order and unchanged, and only then
    opens, reads and executes the file; the run ends normally.  The banner
    ([banner_events]) is a constant: it mentions neither the invocation
    nor the executed file. *)
Theorem banner_precedes_launch (env : invocation) (src : string) :
  modname env = "__main__" ->
  fs env !! target = Some (Regular src) ->
  h_outcome (exec_sem env src (launcher_globals env)) = Ok tt ->
  trace (fst (run exec_sem env)) =
    import_events ++ banner_events
      ++ [Open target; ReadAll target src]
      ++ Exec src (launcher_globals env)
           :: map Hosted (h_events (exec_sem env src (launcher_globals env)))
  /\ (forall ev : event Effect, In ev (import_events ++ banner_events) ->
        is_open ev = false /\ is_read ev = false /\ is_exec ev = false)
  /\ snd (run exec_sem env) = Ok tt.
Proof.
  intros Hmain Hfile Hok.
  rewrite (run_main_regular env src Hmain Hfile). cbn [fst snd trace].
  split; [reflexivity|]. split; [apply prelude_quiet|]. exact Hok.
Qed.

(** ** Errors of the executed file *)

(** C2. When the file exists and its content raises [e], the run ends with
    exactly [e] uncaught: the launcher neither catches nor replaces it,
    and nothing of the launcher runs after the [exec] (the trace ends with
    what the content did). *)
Theorem hosted_error_propagates (env : invocation) (src : string) (e : exn) :
  modname env = "__main__" ->
  fs env !! target = Some (Regular src) ->
  h_outcome (exec_sem env src (launcher_globals env)) = Raise e ->
  snd (run exec_sem env) = Raise e
  /\ uncaught (snd (run exec_sem env)) = Some e
  /\ exists before,
       trace (fst (run exec_sem env)) =
         before ++ Exec src (launcher_globals env)
           :: map Hosted (h_events (exec_sem env src (launcher_globals env))).
Proof.
  intros Hmain Hfile Hraise.
  rewrite (run_main_regular env src Hmain Hfile). cbn [fst snd trace].
  rewrite Hraise. split; [reflexivity|]. split; [reflexivity|].
  exists (import_events ++ banner_events ++ [Open target; ReadAll target src]).
  rewrite <- !app_assoc. reflexivity.
Qed.

(** ** A missing file *)

(** C3. When [complete_dashboard.py] does not exist, the run ends with an
    uncaught [FileNotFoundError] for that path; nothing was read or
    executed, the executed file contributed no event, and the text on
    standard output is the banner alone, which is also what the launcher
    itself writes in every other run as the main module: no part of it
    depends on the launch having succeeded. *)
Theorem missing_file_fails (env : invocation) :
  modname env = "__main__" ->
  fs env !! target = None ->
  snd (run exec_sem env) = Raise (FileNotFoundError target)
  /\ count_events is_read (trace (fst (run exec_sem env))) = 0%nat
  /\ count_events is_exec (trace (fst (run exec_sem env))) = 0%nat
  /\ hosted_events (trace (fst (run exec_sem env))) = []
  /\ stdout_text (trace (fst (run exec_sem env))) = stdout_text (@banner_events Effect)
  /\ (forall env', modname env' = "__main__" ->
        stdout_text (trace (fst (run exec_sem env')))
        = stdout_text (trace (fst (run exec_sem env)))).
Proof.
  intros Hmain Hfile.
  rewrite (run_main_missing env Hmain Hfile). cbn [fst snd trace].
  repeat split; try reflexivity.
  intros env' Hmain'. apply (stdout_text_run_main env' Hmain').
Qed.

(** ** One read, then one exec *)

Lemma count_events_launch (p : event Effect -> bool) (src : string)
    (g : gmap string value) (hs : list Effect) :
  (forall h, p (Hosted h) = false) ->
  count_events p
    (import_events ++ banner_events ++ [Open target; ReadAll target src]
       ++ Exec src g :: map Hosted hs)
  = count_events p
      (import_events ++ banner_events
         ++ [Open target; ReadAll target src] ++ [Exec src g]).
Proof.
  intros Hp. unfold count_events.
  change (Exec src g :: map Hosted hs) with ([Exec src g] ++ map Hosted hs).
  rewrite !List.filter_app, (filter_hosted p hs Hp), app_nil_r.
  reflexivity.
Qed.

(** C4. On the path where the file is there, the launcher opens
    [complete_dashboard.py] once, reads it once and gets its whole content,
    and then hands exactly that text to one [exec], in the module's own
    globals ([__name__], [sys] and [os] as the launcher bound them).  The
    read is over before the execution starts, everything the content does
    comes after the [exec], and the globals the content leaves are the
    module's globals. *)
Theorem read_once_then_exec (env : invocation) (src : string) :
  modname env = "__main__" ->
  fs env !! target = Some (Regular src) ->
  trace (fst (run exec_sem env)) =
    import_events ++ banner_events
      ++ [Open target; ReadAll target src]
      ++ Exec src (launcher_globals env)
           :: map Hosted (h_events (exec_sem env src (launcher_globals env)))
  /\ count_events is_open (trace (fst (run exec_sem env))) = 1%nat
  /\ count_events is_read (trace (fst (run exec_sem env))) = 1%nat
  /\ count_events is_exec (trace (fst (run exec_sem env))) = 1%nat
  /\ launcher_globals env !! "__name__" = Some (VStr "__main__")
  /\ launcher_globals env !! "sys" = Some (VModule "sys")
  /\ launcher_globals env !! "os" = Some (VModule "os")
  /\ globals (fst (run exec_sem env))
      = h_globals (exec_sem env src (launcher_globals env))
  /\ snd (run exec_sem env)
      = h_outcome (exec_sem env src (launcher_globals env)).
Proof.
  intros Hmain Hfile.
  rewrite (run_main_regular env src Hmain Hfile). cbn [fst snd trace globals].
  split; [reflexivity|].
  rewrite !count_events_launch by reflexivity.
  repeat split; try reflexivity.
  - rewrite launcher_globals_name, Hmain. reflexivity.
  - unfold launcher_globals. rewrite lookup_insert_ne by discriminate.
    apply lookup_insert_eq.
  - unfold launcher_globals. apply lookup_insert_eq.
Qed.

(** ** The argument vector *)

(** C5. The launcher never looks at the argument vector.  Two runs that
    differ in nothing else have the same launcher events (the imports, the
    banner, the open and read of the file with the same data, the [exec]
    of the same text in the same globals) and the same launcher output;
    and when the executed text itself behaves the same under both vectors,
    the two runs are equal altogether. *)
Theorem argv_not_consumed (env : invocation) (a1 a2 : list string) :
  own_events (trace (fst (run exec_sem (with_argv a1 env))))
  = own_events (trace (fst (run exec_sem (with_argv a2 env))))
  /\ stdout_text (trace (fst (run exec_sem (with_argv a1 env))))
     = stdout_text (trace (fst (run exec_sem (with_argv a2 env))))
  /\ ((forall src, fs env !! target <> Some (Regular src)) ->
      run exec_sem (with_argv a1 env) = run exec_sem (with_argv a2 env))
  /\ ((forall src g,
        exec_sem (with_argv a1 env) src g = exec_sem (with_argv a2 env) src g) ->
      run exec_sem (with_argv a1 env) = run exec_sem (with_argv a2 env)).
Proof.
  assert (Hout : stdout_text (trace (fst (run exec_sem (with_argv a1 env))))
                 = stdout_text (trace (fst (run exec_sem (with_argv a2 env))))).
  { destruct (String.eqb_spec (modname env) "__main__") as [Hmain|Hother].
    - rewrite !stdout_text_run_main by exact Hmain. reflexivity.
    - rewrite !run_imported by exact Hother. reflexivity. }
  revert Hout. rewrite !run_unfold. cbn [with_argv modname fs].
  change (launcher_globals (with_argv a1 env)) with (launcher_globals env).
  change (launcher_globals (with_argv a2 env)) with (launcher_globals env).
  destruct (String.eqb (modname env) "__main__");
    [|repeat split; reflexivity].
  destruct (fs env !! target) as [[src| |]|];
    try (repeat split; reflexivity).
  cbn [fst snd trace]. intros Hout. repeat split.
  - rewrite !(app_assoc import_events), !(app_assoc (import_events ++ _)).
    change (Exec src (launcher_globals env) :: map Hosted ?hs)
      with ([Exec (Effect:=Effect) src (launcher_globals env)] ++ map Hosted hs).
    rewrite !app_assoc, !(own_events_app _ (map Hosted _)), !own_events_hosted.
    reflexivity.
  - exact Hout.
  - intros Hnot. destruct (Hnot src). reflexivity.
  - intros Hsame. rewrite Hsame. reflexivity.
Qed.

(** ** The path *)

Lemma prelude_no_path (ev : event Effect) :
  In ev (import_events ++ banner_events) ->
  event_path ev = None /\ is_exec ev = false.
Proof.
  unfold import_events, banner_events, banner_lines. simpl.
  intros H. repeat (destruct H as [<-|H]; [split; reflexivity|]). destruct H.
Qed.

Lemma hosted_no_path (ev : event Effect) (hs : list Effect) :
  In ev (map Hosted hs) -> event_path ev = None /\ is_exec ev = false.
Proof.
  intros H. apply in_map_iff in H. destruct H as [h [<- _]].
  split; reflexivity.
Qed.

(** C6. The path is the constant ['complete_dashboard.py'], a non-empty
    string.  In every run, each event that opens or reads a file names
    that path, and each text handed to [exec] is the content stored under
    that path. *)
Theorem target_path_constant (env : invocation) :
  target = "complete_dashboard.py"
  /\ target <> ""
  /\ (forall (ev : event Effect) (p : string),
        In ev (trace (fst (run exec_sem env))) ->
        event_path ev = Some p -> p = target)
  /\ (forall (src : string) (g : gmap string value),
        In (Exec src g) (trace (fst (run exec_sem env))) ->
        fs env !! target = Some (Regular src)).
Proof.
  split; [reflexivity|]. split; [discriminate|].
  rewrite run_unfold.
  destruct (String.eqb (modname env) "__main__").
  - destruct (fs env !! target) as [[src| |]|]; cbn [fst trace]; split.
    all: try (intros ev p Hin Hp; rewrite app_assoc in Hin;
              apply in_app_or in Hin; destruct Hin as [Hin|Hin];
              [apply prelude_no_path in Hin; destruct Hin; congruence|]).
    all: try (intros src' g Hin; rewrite app_assoc in Hin;
              apply in_app_or in Hin; destruct Hin as [Hin|Hin];
              [apply prelude_no_path in Hin; destruct Hin; discriminate|]).
    + destruct Hin as [<-|[<-|[<-|Hin]]]; simpl in Hp; try congruence.
      apply hosted_no_path in Hin. destruct Hin. congruence.
    + destruct Hin as [Heq|[Heq|[Heq|Hin]]]; try discriminate.
      * inversion Heq. reflexivity.
      * apply hosted_no_path in Hin. destruct Hin. discriminate.
    + destruct Hin as [<-|[]]. simpl in Hp. congruence.
    + destruct Hin as [Heq|[]]. discriminate.
    + destruct Hin as [<-|[]]. simpl in Hp. congruence.
    + destruct Hin as [Heq|[]]. discriminate.
    + destruct Hin as [<-|[]]. simpl in Hp. congruence.
    + destruct Hin as [Heq|[]]. discriminate.
  - cbn [fst trace]. split.
    + intros ev p [<-|[<-|[]]] Hp; discriminate.
    + intros src g [Heq|[Heq|[]]]; discriminate.
Qed.

(** ** The exit status *)

(** C7. The launcher has no exit call of its own: a run that ends in
    [SystemExit] got it from the executed content.  A run whose module
    body returns exits with status 0; a run that ends in any uncaught
    failure exits with a status other than 0, which is the case when the
    file cannot be opened (status 1) and when the content raises. *)
Theorem exit_status_default (env : invocation) :
  (forall s, snd (run exec_sem env) = Raise (SystemExit s) ->
     exists src,
       fs env !! target = Some (Regular src)
       /\ h_outcome (exec_sem env src (launcher_globals env))
          = Raise (SystemExit s))
  /\ (snd (run exec_sem env) = Ok tt -> process_status exec_sem env = 0)
  /\ (forall e, snd (run exec_sem env) = Raise e -> is_failure e = true ->
       process_status exec_sem env <> 0)
  /\ (modname env = "__main__" ->
      (forall src, fs env !! target <> Some (Regular src)) ->
      process_status exec_sem env = 1)
  /\ (forall src e, modname env = "__main__" ->
       fs env !! target = Some (Regular src) ->
       h_outcome (exec_sem env src (launcher_globals env)) = Raise e ->
       is_failure e = true ->
       process_status exec_sem env <> 0).
Proof.
  unfold process_status.
  assert (Hfail : forall e, is_failure e = true -> exit_status (Raise e) <> 0).
  { intros [p|p|p|x| |s|c m] He; simpl; try discriminate. }
  repeat split.
  - intros s. rewrite run_unfold.
    destruct (String.eqb (modname env) "__main__"); [|discriminate].
    destruct (fs env !! target) as [[src| |]|]; try discriminate.
    cbn [snd]. intros Hs. exists src. split; [reflexivity|exact Hs].
  - intros ->. reflexivity.
  - intros e -> He. apply Hfail, He.
  - intros Hmain Hnot. rewrite run_unfold, Hmain.
    cbn [String.eqb Ascii.eqb Bool.eqb].
    destruct (fs env !! target) as [[src| |]|]; try reflexivity.
    destruct (Hnot src). reflexivity.
  - intros src e Hmain Hfile Hraise He.
    rewrite (run_main_regular env src Hmain Hfile). cbn [snd].
    rewrite Hraise. apply Hfail, He.
Qed.

(** ** Loaded as a module *)

(** C8. When the script is not the main module ([__name__] is anything
    but [__main__]), the whole run is the two imports: nothing is written,
    no file is opened or read, nothing is executed, and the body returns
    normally with [sys] and [os] bound in the module's globals. *)
Theorem import_is_silent (env : invocation) :
  modname env <> "__main__" ->
  run exec_sem env
  = (World (launcher_globals env) [Import "sys"; Import "os"], Ok tt)
  /\ stdout_text (trace (fst (run exec_sem env))) = ""
  /\ count_events is_stdout (trace (fst (run exec_sem env))) = 0%nat
  /\ count_events is_open (trace (fst (run exec_sem env))) = 0%nat
  /\ count_events is_read (trace (fst (run exec_sem env))) = 0%nat
  /\ count_events is_exec (trace (fst (run exec_sem env))) = 0%nat
  /\ hosted_events (trace (fst (run exec_sem env))) = [].
Proof.
  intros Hname. rewrite (run_imported env Hname).
  repeat split; reflexivity.
Qed.

(** ** The banner does not wait for the file *)

(** C9. With [complete_dashboard.py] missing, the trace is: the imports,
    the whole banner, the failed open; then [FileNotFoundError] reaches
    the top level.  More generally every run as the main module starts
    with the imports and the whole banner followed by the open, whatever
    the working directory holds. *)
Theorem banner_unconditional (env : invocation) :
  modname env = "__main__" ->
  fs env !! target = None ->
  trace (fst (run exec_sem env))
  = import_events ++ banner_events ++ [Open target]
  /\ stdout_text (trace (fst (run exec_sem env)))
     = stdout_text (@banner_events Effect)
  /\ snd (run exec_sem env) = Raise (FileNotFoundError target)
  /\ (forall env', modname env' = "__main__" ->
       exists rest,
         trace (fst (run exec_sem env'))
         = import_events ++ banner_events ++ Open target :: rest).
Proof.
  intros Hmain Hfile.
  rewrite (run_main_missing env Hmain Hfile). cbn [fst snd trace].
  repeat split; try reflexivity.
  intros env' Hmain'. rewrite run_unfold, Hmain'.
  cbn [String.eqb Ascii.eqb Bool.eqb].
  destruct (fs env' !! target) as [[src| |]|]; cbn [fst trace];
    eexists; reflexivity.
Qed.

(** ** Guarded code in the executed file *)

Lemma launcher_globals_main (env : invocation) :
  modname env = "__main__" -> name_is_main (launcher_globals env) = true.
Proof.
  intros Hmain. unfold name_is_main.
  rewrite launcher_globals_name, Hmain. reflexivity.
Qed.

(** C10. The content is executed in globals where [__name__] is the string
    [__main__].  Hence, whatever the meaning of executed code, a content
    [c] that is a body [b] under an [if __name__ == "__main__":] guard
    behaves as [b] when the launcher runs it: the effects and the outcome
    of the run are those of [b]. *)
Theorem guarded_code_runs (env : invocation) (c b : string) :
  modname env = "__main__" ->
  fs env !! target = Some (Regular c) ->
  main_guarded exec_sem c b ->
  launcher_globals env !! "__name__" = Some (VStr "__main__")
  /\ In (Exec c (launcher_globals env)) (trace (fst (run exec_sem env)))
  /\ hosted_events (trace (fst (run exec_sem env)))
     = h_events (exec_sem env b (launcher_globals env))
  /\ globals (fst (run exec_sem env))
     = h_globals (exec_sem env b (launcher_globals env))
  /\ snd (run exec_sem env)
     = h_outcome (exec_sem env b (launcher_globals env)).
Proof.
  intros Hmain Hfile Hguard.
  rewrite (run_main_regular env c Hmain Hfile). cbn [fst snd trace globals].
  rewrite (Hguard env (launcher_globals env)),
          (launcher_globals_main env Hmain).
  split; [rewrite launcher_globals_name, Hmain; reflexivity|].
  split.
  { rewrite !app_assoc. apply in_or_app. right. left. reflexivity. }
  split; [|split; reflexivity].
  rewrite !hosted_events_app. cbn [hosted_events].
  rewrite hosted_events_map. reflexivity.
Qed.

End LauncherFacts.

(** * Further properties of the module body *)

Section LauncherBehaviour.

Context {Effect : Type}.
Variable exec_sem : invocation -> string -> gmap string value -> hosted Effect.

(** An [exec] in the trace pins down the run: the script was the main
    module, the text is the content of the file, the dictionary is the
    launcher's. *)
Lemma exec_in_trace (env : invocation) (src : string) (g : gmap string value) :
  In (Exec src g) (trace (fst (run exec_sem env))) ->
  modname env = "__main__"
  /\ fs env !! target = Some (Regular src)
  /\ g = launcher_globals env.
Proof.
  rewrite run_unfold.
  destruct (String.eqb_spec (modname env) "__main__") as [Hmain|Hother].
  - assert (Hprelude : ~ In (Exec src g) (@import_events Effect ++ banner_events)).
    { intros Hin. apply prelude_no_path in Hin. destruct Hin. discriminate. }
    destruct (fs env !! target) as [[src'| |]|]; cbn [fst trace];
      rewrite app_assoc; intros Hin; apply in_app_or in Hin;
      destruct Hin as [Hin|Hin]; try (destruct (Hprelude Hin)).
    + destruct Hin as [Heq|[Heq|[Heq|Hin]]]; try discriminate.
      * inversion Heq. subst. repeat split. exact Hmain.
      * apply hosted_no_path in Hin. destruct Hin. discriminate.
    + destruct Hin as [Heq|[]]. discriminate.
    + destruct Hin as [Heq|[]]. discriminate.
    + destruct Hin as [Heq|[]]. discriminate.
  - cbn [fst trace]. intros [Heq|[Heq|[]]]; discriminate.
Qed.

Lemma exec_reached (env : invocation) (src : string) :
  modname env = "__main__" ->
  fs env !! target = Some (Regular src) ->
  In (Exec src (launcher_globals env)) (trace (fst (run exec_sem env))).
Proof.
  intros Hmain Hfile. rewrite (run_main_regular exec_sem env src Hmain Hfile).
  cbn [fst trace]. rewrite !app_assoc. apply in_or_app. right. left.
  reflexivity.
Qed.

(** X1. When [complete_dashboard.py] is there but cannot be opened for
    reading (it is a directory, or the process may not read it), the run
    is the imports, the whole banner and the failed [open]; it ends with
    the error of that [open] uncaught, exit status 1, and the module's
    globals hold just what the imports bound. *)
Theorem unopenable_file_fails (env : invocation) (n : node) :
  modname env = "__main__" ->
  fs env !! target = Some n ->
  (forall src, n <> Regular src) ->
  trace (fst (run exec_sem env))
  = import_events ++ banner_events ++ [Open target]
  /\ snd (run exec_sem env)
     = Raise (match n with
              | Directory => IsADirectoryError target
              | _ => PermissionError target
              end)
  /\ globals (fst (run exec_sem env)) = launcher_globals env
  /\ process_status exec_sem env = 1.
Proof.
  intros Hmain Hfile Hnot. unfold process_status.
  rewrite run_unfold, Hmain, Hfile. cbn [String.eqb Ascii.eqb Bool.eqb].
  destruct n as [src| |]; [destruct (Hnot src); reflexivity| |];
    repeat split; reflexivity.
Qed.

(** X2. The module body returns normally in exactly two situations: the
    script was not the main module, or the file was read and its content
    returned normally. *)
Theorem returns_normally_iff (env : invocation) :
  snd (run exec_sem env) = Ok tt
  <-> (modname env <> "__main__"
       \/ exists src,
            fs env !! target = Some (Regular src)
            /\ h_outcome (exec_sem env src (launcher_globals env)) = Ok tt).
Proof.
  rewrite run_unfold.
  destruct (String.eqb_spec (modname env) "__main__") as [Hmain|Hother].
  - destruct (fs env !! target) as [[src| |]|]; cbn [snd]; split.
    + intros Hok. right. exists src. split; [reflexivity|exact Hok].
    + intros [Hno|[src' [Heq Hok]]]; [destruct (Hno Hmain)|].
      inversion Heq. subst. exact Hok.
    + discriminate.
    + intros [Hno|[src' [Heq _]]]; [destruct (Hno Hmain)|discriminate].
    + discriminate.
    + intros [Hno|[src' [Heq _]]]; [destruct (Hno Hmain)|discriminate].
    + discriminate.
    + intros [Hno|[src' [Heq _]]]; [destruct (Hno Hmain)|discriminate].
  - cbn [snd]. split; [intros _; left; exact Hother|reflexivity].
Qed.


(** The launcher's part of a run that reaches [exec]. *)
Lemma own_events_launch (src : string) (g : gmap string value)
    (hs : list Effect) :
  own_events
    (import_events ++ banner_events ++ [Open target; ReadAll target src]
       ++ Exec src g :: map Hosted hs)
  = import_events ++ banner_events
      ++ [Open target; ReadAll target src; Exec src g].
Proof.
  change (Exec src g :: map Hosted hs) with ([Exec src g] ++ map Hosted hs).
  rewrite !own_events_app, own_events_hosted, app_nil_r. reflexivity.
Qed.

(** X4. The dictionary the content is executed in is the interpreter's
    preset one with three names on top: [__name__] is [__main__], [sys]
    and [os] are the imported modules (whatever was preset under these
    names), and every other name has its preset value or none. *)
Theorem exec_namespace (env : invocation) (src : string)
    (g : gmap string value) :
  In (Exec src g) (trace (fst (run exec_sem env))) ->
  g !! "__name__" = Some (VStr "__main__")
  /\ g !! "sys" = Some (VModule "sys")
  /\ g !! "os" = Some (VModule "os")
  /\ (forall k, k <> "__name__" -> k <> "sys" -> k <> "os" ->
       g !! k = preset env !! k).
Proof.
  intros Hin. apply exec_in_trace in Hin. destruct Hin as (Hmain & _ & ->).
  split; [rewrite launcher_globals_name, Hmain; reflexivity|].
  unfold launcher_globals, initial_globals. split.
  { rewrite lookup_insert_ne by discriminate. apply lookup_insert_eq. }
  split; [apply lookup_insert_eq|].
  intros k Hname Hsys Hos.
  rewrite !lookup_insert_ne by congruence. reflexivity.
Qed.

(** X5. The launcher looks at one path only.  Two processes with the same
    module name and preset globals whose working directories agree on
    [complete_dashboard.py] have the same launcher events and output,
    whatever else the directories hold and whatever the arguments; they
    are the same run altogether when the content behaves the same in
    both. *)
Theorem other_files_ignored (env1 env2 : invocation) :
  modname env1 = modname env2 ->
  preset env1 = preset env2 ->
  fs env1 !! target = fs env2 !! target ->
  own_events (trace (fst (run exec_sem env1)))
  = own_events (trace (fst (run exec_sem env2)))
  /\ stdout_text (trace (fst (run exec_sem env1)))
     = stdout_text (trace (fst (run exec_sem env2)))
  /\ ((forall src g, exec_sem env1 src g = exec_sem env2 src g) ->
      run exec_sem env1 = run exec_sem env2).
Proof.
  intros Hname Hpreset Hfile.
  assert (Hg : launcher_globals env1 = launcher_globals env2).
  { unfold launcher_globals, initial_globals. rewrite Hname, Hpreset.
    reflexivity. }
  assert (Hout : stdout_text (trace (fst (run exec_sem env1)))
                 = stdout_text (trace (fst (run exec_sem env2)))).
  { destruct (String.eqb_spec (modname env1) "__main__") as [Hmain|Hother].
    - rewrite !stdout_text_run_main by congruence. reflexivity.
    - rewrite !run_imported by congruence. reflexivity. }
  split; [|split; [exact Hout|]]; rewrite !run_unfold, <- Hname, <- Hfile, <- Hg.
  - destruct (String.eqb (modname env1) "__main__"); [|reflexivity].
    destruct (fs env1 !! target) as [[src| |]|]; try reflexivity.
    cbn [fst trace]. rewrite !own_events_launch. reflexivity.
  - intros Hsame.
    destruct (String.eqb (modname env1) "__main__"); [|reflexivity].
    destruct (fs env1 !! target) as [[src| |]|]; try reflexivity.
    rewrite Hsame. reflexivity.
Qed.


End LauncherBehaviour.

(** * The launcher on concrete working directories *)

(** The separator line is sixty [=] signs. *)
Example separator_line :
  str_mul "=" 60
  = "============================================================".
Proof. reflexivity. Qed.

(** What the launcher writes, character for character. *)
Example banner_text :
  stdout_text (@banner_events string)
  = str_mul "=" 60 +:+ nl
    +:+ "FASHION TRENDS DASHBOARD SERVICE" +:+ nl
    +:+ str_mul "=" 60 +:+ nl
    +:+ nl +:+ "Starting Dash application..." +:+ nl
    +:+ "Dashboard will be available at: http://localhost:8051" +:+ nl
    +:+ nl +:+ "Features:" +:+ nl
    +:+ "  • Overview: Fashion trend analysis with Google Trends" +:+ nl
    +:+ "  • Trends: State-wise analysis & fashion blog reports" +:+ nl
    +:+ "  • Reports: Multi-timeframe comprehensive analysis" +:+ nl
    +:+ nl +:+ "Press CTRL+C to stop the server" +:+ nl
    +:+ str_mul "=" 60 +:+ nl
    +:+ nl.
Proof. reflexivity. Qed.

(** A content that prints the argument vector shows it: only the part of
    the trace that the content produces changes with the vector. *)
Example hosted_code_may_read_argv :
  hosted_events
    (trace (fst (run toy_exec
                   (with_argv ["a"] (script_with "print(sys.argv)")))))
  = ["a"]
  /\ hosted_events
       (trace (fst (run toy_exec
                      (with_argv ["b"] (script_with "print(sys.argv)")))))
     = ["b"].
Proof. split; reflexivity. Qed.

(** The same guarded text does nothing in a dictionary whose [__name__]
    is another module's. *)
Example guarded_code_elsewhere :
  h_events (toy_exec script_alone (toy_guard +:+ "hello")
              {[ "__name__" := VStr "complete_dashboard" ]})
  = [].
Proof. reflexivity. Qed.

(** A content that asks for exit status 3 gets it. *)
Example requested_exit_is_kept :
  exit_status (Raise (SystemExit 3)) = 3.
Proof. reflexivity. Qed.

Lemma banner_precedes_launch_witness :
  modname (script_with "hello") = "__main__"
  /\ fs (script_with "hello") !! target = Some (Regular "hello")
  /\ trace (fst (run toy_exec (script_with "hello")))
     = import_events ++ banner_events
         ++ [Open target; ReadAll target "hello";
             Exec "hello" (launcher_globals (script_with "hello"));
             Hosted "hello"]
  /\ snd (run toy_exec (script_with "hello")) = Ok tt.
Proof.
  assert (Hmain : modname (script_with "hello") = "__main__") by reflexivity.
  assert (Hfile : fs (script_with "hello") !! target = Some (Regular "hello"))
    by reflexivity.
  assert (Hok : h_outcome (toy_exec (script_with "hello") "hello"
                             (launcher_globals (script_with "hello")))
                = Ok tt) by reflexivity.
  destruct (banner_precedes_launch toy_exec (script_with "hello") "hello"
              Hmain Hfile Hok) as (Htrace & _ & Hend).
  split; [exact Hmain|]. split; [exact Hfile|].
  split; [exact Htrace|exact Hend].
Defined.

Lemma hosted_error_propagates_witness :
  fs (script_with "raise RuntimeError('boom')") !! target
  = Some (Regular "raise RuntimeError('boom')")
  /\ h_outcome (toy_exec (script_with "raise RuntimeError('boom')")
                  "raise RuntimeError('boom')"
                  (launcher_globals (script_with "raise RuntimeError('boom')")))
     = Raise (Failure "RuntimeError" "boom")
  /\ snd (run toy_exec (script_with "raise RuntimeError('boom')"))
     = Raise (Failure "RuntimeError" "boom").
Proof.
  pose (env := script_with "raise RuntimeError('boom')").
  assert (Hmain : modname env = "__main__") by reflexivity.
  assert (Hfile : fs env !! target = Some (Regular "raise RuntimeError('boom')"))
    by reflexivity.
  assert (Hraise : h_outcome (toy_exec env "raise RuntimeError('boom')"
                                (launcher_globals env))
                   = Raise (Failure "RuntimeError" "boom")) by reflexivity.
  destruct (hosted_error_propagates toy_exec env _ _ Hmain Hfile Hraise)
    as (Hend & _ & _).
  split; [exact Hfile|]. split; [exact Hraise|exact Hend].
Defined.

Lemma missing_file_fails_witness :
  modname script_alone = "__main__"
  /\ fs script_alone !! target = None
  /\ snd (run toy_exec script_alone) = Raise (FileNotFoundError target)
  /\ hosted_events (trace (fst (run toy_exec script_alone))) = [].
Proof.
  assert (Hmain : modname script_alone = "__main__") by reflexivity.
  assert (Hfile : fs script_alone !! target = None) by reflexivity.
  destruct (missing_file_fails toy_exec script_alone Hmain Hfile)
    as (Hend & _ & _ & Hquiet & _).
  split; [exact Hmain|]. split; [exact Hfile|].
  split; [exact Hend|exact Hquiet].
Defined.

Lemma read_once_then_exec_witness :
  fs (script_with "hello") !! target = Some (Regular "hello")
  /\ count_events is_open (trace (fst (run toy_exec (script_with "hello")))) = 1%nat
  /\ count_events is_read (trace (fst (run toy_exec (script_with "hello")))) = 1%nat
  /\ count_events is_exec (trace (fst (run toy_exec (script_with "hello")))) = 1%nat
  /\ hosted_events (trace (fst (run toy_exec (script_with "hello")))) = ["hello"].
Proof.
  assert (Hmain : modname (script_with "hello") = "__main__") by reflexivity.
  assert (Hfile : fs (script_with "hello") !! target = Some (Regular "hello"))
    by reflexivity.
  destruct (read_once_then_exec toy_exec (script_with "hello") "hello"
              Hmain Hfile) as (Htrace & Hopen & Hread & Hexec & _).
  split; [exact Hfile|]. split; [exact Hopen|]. split; [exact Hread|].
  split; [exact Hexec|]. rewrite Htrace. reflexivity.
Defined.

Lemma argv_not_consumed_witness :
  own_events
    (trace (fst (run toy_exec (with_argv ["a"] (script_with "print(sys.argv)")))))
  = own_events
      (trace (fst (run toy_exec (with_argv ["b"] (script_with "print(sys.argv)"))))).
Proof.
  exact (proj1 (argv_not_consumed toy_exec (script_with "print(sys.argv)")
                  ["a"] ["b"])).
Defined.

Lemma target_path_constant_witness :
  In (Open target) (trace (fst (run toy_exec (script_with "hello"))))
  /\ In (Exec "hello" (launcher_globals (script_with "hello")))
        (trace (fst (run toy_exec (script_with "hello"))))
  /\ fs (script_with "hello") !! target = Some (Regular "hello").
Proof.
  assert (Hopen : In (Open target)
                     (trace (fst (run toy_exec (script_with "hello"))))).
  { vm_compute. do 14 right. left. reflexivity. }
  assert (Hexec : In (Exec "hello" (launcher_globals (script_with "hello")))
                     (trace (fst (run toy_exec (script_with "hello"))))).
  { rewrite (run_unfold toy_exec). cbn [fst trace script_with modname fs String.eqb].
    apply in_or_app. right. apply in_or_app. right. do 2 right. left.
    reflexivity. }
  destruct (target_path_constant toy_exec (script_with "hello"))
    as (_ & _ & _ & Hsrc).
  split; [exact Hopen|]. split; [exact Hexec|].
  exact (Hsrc _ _ Hexec).
Defined.

Lemma exit_status_default_witness :
  process_status toy_exec (script_with "hello") = 0
  /\ process_status toy_exec script_alone = 1
  /\ process_status toy_exec (script_with "raise RuntimeError('boom')") <> 0.
Proof.
  split; [|split].
  - apply (exit_status_default toy_exec (script_with "hello")). reflexivity.
  - apply (exit_status_default toy_exec script_alone); [reflexivity|].
    intros src. discriminate.
  - apply (proj2 (proj2 (proj2 (proj2
             (exit_status_default toy_exec
                (script_with "raise RuntimeError('boom')")))))
             "raise RuntimeError('boom')" (Failure "RuntimeError" "boom"));
      reflexivity.
Defined.

Lemma import_is_silent_witness :
  modname (imported_with "hello") <> "__main__"
  /\ trace (fst (run toy_exec (imported_with "hello")))
     = [Import "sys"; Import "os"]
  /\ snd (run toy_exec (imported_with "hello")) = Ok tt.
Proof.
  assert (Hname : modname (imported_with "hello") <> "__main__")
    by discriminate.
  destruct (import_is_silent toy_exec (imported_with "hello") Hname)
    as (Hrun & _).
  split; [exact Hname|]. rewrite Hrun. split; reflexivity.
Defined.

Lemma banner_unconditional_witness :
  fs script_alone !! target = None
  /\ trace (fst (run toy_exec script_alone))
     = import_events ++ banner_events ++ [Open target]
  /\ snd (run toy_exec script_alone) = Raise (FileNotFoundError target).
Proof.
  assert (Hmain : modname script_alone = "__main__") by reflexivity.
  assert (Hfile : fs script_alone !! target = None) by reflexivity.
  destruct (banner_unconditional toy_exec script_alone Hmain Hfile)
    as (Htrace & _ & Hend & _).
  split; [exact Hfile|]. split; [exact Htrace|exact Hend].
Defined.

Lemma guarded_code_runs_witness :
  main_guarded toy_exec (toy_guard +:+ "hello") "hello"
  /\ fs (script_with (toy_guard +:+ "hello")) !! target
     = Some (Regular (toy_guard +:+ "hello"))
  /\ hosted_events
       (trace (fst (run toy_exec (script_with (toy_guard +:+ "hello")))))
     = ["hello"]
  /\ snd (run toy_exec (script_with (toy_guard +:+ "hello"))) = Ok tt.
Proof.
  pose (env := script_with (toy_guard +:+ "hello")).
  assert (Hmain : modname env = "__main__") by reflexivity.
  assert (Hfile : fs env !! target = Some (Regular (toy_guard +:+ "hello")))
    by reflexivity.
  assert (Hguard : main_guarded toy_exec (toy_guard +:+ "hello") "hello").
  { intros env' g. reflexivity. }
  destruct (guarded_code_runs toy_exec env _ "hello" Hmain Hfile Hguard)
    as (_ & _ & Hevents & _ & Hend).
  split; [exact Hguard|]. split; [exact Hfile|].
  split; [exact Hevents|exact Hend].
Defined.

(** A directory named [complete_dashboard.py] stops the launch after the
    banner. *)
Lemma unopenable_file_fails_witness :
  fs (script_beside Directory) !! target = Some Directory
  /\ trace (fst (run toy_exec (script_beside Directory)))
     = import_events ++ banner_events ++ [Open target]
  /\ snd (run toy_exec (script_beside Directory))
     = Raise (IsADirectoryError target)
  /\ process_status toy_exec (script_beside Directory) = 1.
Proof.
  assert (Hmain : modname (script_beside Directory) = "__main__")
    by reflexivity.
  assert (Hfile : fs (script_beside Directory) !! target = Some Directory)
    by reflexivity.
  assert (Hnot : forall src, Directory <> Regular src) by discriminate.
  destruct (unopenable_file_fails toy_exec (script_beside Directory)
              Directory Hmain Hfile Hnot) as (Htrace & Hend & _ & Hstatus).
  split; [exact Hfile|]. split; [exact Htrace|].
  split; [exact Hend|exact Hstatus].
Defined.

(** The imports win over a preset [sys] and the module name over a preset
    [__name__]; [__file__] reaches the content untouched. *)
Lemma exec_namespace_witness :
  In (Exec "hello" (launcher_globals (preset_script "hello")))
     (trace (fst (run toy_exec (preset_script "hello"))))
  /\ launcher_globals (preset_script "hello") !! "__name__"
     = Some (VStr "__main__")
  /\ launcher_globals (preset_script "hello") !! "sys" = Some (VModule "sys")
  /\ launcher_globals (preset_script "hello") !! "__file__"
     = Some (VStr "trends_dashboard_service.py").
Proof.
  assert (Hin : In (Exec "hello" (launcher_globals (preset_script "hello")))
                   (trace (fst (run toy_exec (preset_script "hello"))))).
  { apply exec_reached; reflexivity. }
  destruct (exec_namespace toy_exec (preset_script "hello") _ _ Hin)
    as (Hname & Hsys & _ & Hrest).
  split; [exact Hin|]. split; [exact Hname|]. split; [exact Hsys|].
  rewrite (Hrest "__file__") by discriminate. reflexivity.
Defined.

(** Another argument and two more entries in the directory change nothing
    of what the launcher does. *)
Lemma other_files_ignored_witness :
  fs (script_with "hello") !! "notes.txt" = None
  /\ fs (busy_directory "hello") !! "notes.txt" = Some (Regular "todo")
  /\ fs (script_with "hello") !! target = fs (busy_directory "hello") !! target
  /\ own_events (trace (fst (run toy_exec (script_with "hello"))))
     = own_events (trace (fst (run toy_exec (busy_directory "hello")))).
Proof.
  assert (Hname : modname (script_with "hello")
                  = modname (busy_directory "hello")) by reflexivity.
  assert (Hpreset : preset (script_with "hello")
                    = preset (busy_directory "hello")) by reflexivity.
  assert (Hfile : fs (script_with "hello") !! target
                  = fs (busy_directory "hello") !! target)
    by (vm_compute; reflexivity).
  destruct (other_files_ignored toy_exec (script_with "hello")
              (busy_directory "hello") Hname Hpreset Hfile)
    as (Hown & _ & _).
  split; [vm_compute; reflexivity|]. split; [vm_compute; reflexivity|].
  split; [exact Hfile|exact Hown].
Defined.

